(** * capibmadm vpc key create

    A shallow embedding of cmd/capibmadm/cmd/vpc/key/create.go: the cobra
    command built by [CreateCommand] (its PreRunE and RunE closures) and the
    helper [createKey].

    The command talks to the outside world through a handful of
    collaborators (os.Open, ssh.ParseAuthorizedKey, vpc.NewV1Client,
    utils.GetAccountID, utils.GetResourceGroupID, VpcV1.CreateKey and the
    logger).  Each of them is a field of a [World]; every call the code makes
    is recorded, with its arguments and its result, in a trace of [event]s, so
    that "no remote call is made" and "the file is closed" are statements
    about that trace. *)

From Stdlib Require Import String Ascii List Bool NArith Lia.
Import ListNotations.
Open Scope string_scope.
Open Scope list_scope.

(** ** Go errors *)

(** An [error] is either an opaque message (errors.New, fmt.Errorf without a
    %w verb, any error a collaborator hands back) or the result of
    fmt.Errorf with one %w verb: the text before the verb, the wrapped error,
    the text after the verb. *)
Inductive error : Type :=
| errorString (s : string)
| wrapError (pre : string) (err : error) (post : string).

Fixpoint Error (e : error) : string :=
  match e with
  | errorString s => s
  | wrapError pre err post => (pre ++ Error err ++ post)%string
  end.

Definition Unwrap (e : error) : option error :=
  match e with
  | errorString _ => None
  | wrapError _ err _ => Some err
  end.

Module fmt.
(** fmt.Errorf(msg) with no verb. *)
Definition Errorf (msg : string) : error := errorString msg.
(** fmt.Errorf(pre ++ "%w" ++ post, err). *)
Definition Errorf_w (pre : string) (err : error) (post : string) : error :=
  wrapError pre err post.
End fmt.

(** ** Files and the line scanner *)

Module os.
(** An opened file, as far as this command can observe it: a descriptor,
    the bytes its reads deliver, and how the reads end, with the end of the
    file ([None]) or with a read error. *)
Record File : Type := {
  fd : nat;
  contents : string;
  readErr : option error
}.
End os.

Definition LF : ascii := "010"%char.
Definition CR : ascii := "013"%char.

Module bufio.
(** bufio.MaxScanTokenSize = 64 * 1024. *)
Definition MaxScanTokenSize : N := 65536.

Definition ErrTooLong : error := errorString "bufio.Scanner: token too long".

(** dropCR drops one terminal carriage return from the data. *)
Fixpoint dropCR (data : string) : string :=
  match data with
  | EmptyString => EmptyString
  | String c EmptyString => if Ascii.eqb c CR then EmptyString else data
  | String c rest => String c (dropCR rest)
  end.

Definition fits (line : string) : bool :=
  (N.of_nat (String.length line) <? MaxScanTokenSize)%N.

(** The tokens that successive calls of Scanner.Scan yield with the default
    split function ScanLines, and whether scanning stopped at a line that
    does not fit the buffer.  [cur] is the part of the current line already
    buffered.  A line ends at a newline; what is left when the input ends
    (at the end of the file or at a read error) is a last line if it is not
    empty. *)
Fixpoint scanFrom (cur : string) (data : string) : list string * bool :=
  match data with
  | EmptyString =>
      match cur with
      | EmptyString => ([], false)
      | _ => if fits cur then ([dropCR cur], false) else ([], true)
      end
  | String c rest =>
      if Ascii.eqb c LF then
        if fits cur then
          let (toks, long) := scanFrom EmptyString rest in
          (dropCR cur :: toks, long)
        else ([], true)
      else scanFrom (cur ++ String c EmptyString)%string rest
  end.

(** A Scanner run over a file to exhaustion: the texts of the successful
    Scan calls, and what Scanner.Err would report afterwards. *)
Definition Scan (f : os.File) : list string * option error :=
  let (toks, long) := scanFrom EmptyString (os.contents f) in
  (toks, if long then Some ErrTooLong else os.readErr f).
End bufio.

(** ** The VPC SDK types the command touches *)

Module vpcv1.
Record ResourceGroupIdentity : Type := { ID : option string }.

(** Pointer fields are options: [None] is nil. *)
Record CreateKeyOptions : Type := {
  Name : option string;
  PublicKey : option string;
  ResourceGroup : option ResourceGroupIdentity
}.

(** &vpcv1.CreateKeyOptions{} *)
Definition emptyCreateKeyOptions : CreateKeyOptions :=
  {| Name := None; PublicKey := None; ResourceGroup := None |}.

Definition SetName (o : CreateKeyOptions) (n : string) : CreateKeyOptions :=
  {| Name := Some n; PublicKey := PublicKey o; ResourceGroup := ResourceGroup o |}.

Definition SetPublicKey (o : CreateKeyOptions) (k : string) : CreateKeyOptions :=
  {| Name := Name o; PublicKey := Some k; ResourceGroup := ResourceGroup o |}.

Definition SetResourceGroup (o : CreateKeyOptions) (rg : ResourceGroupIdentity)
  : CreateKeyOptions :=
  {| Name := Name o; PublicKey := PublicKey o; ResourceGroup := Some rg |}.

(** vpcv1.Key; only its Name pointer is read. *)
Record Key : Type := { KeyName : option string }.

(** The client handle returned by vpc.NewV1Client. *)
Record VpcV1 : Type := { clientID : nat }.
End vpcv1.

Module iam.
Record Authenticator : Type := { ApiKey : string }.
End iam.

Module options.
(** Modelled from the spec: the options package (GlobalOptions and
    AddCommonFlags) is not among the sources.  The code reads
    GlobalOptions.VPCRegion; the spec lists --resource-group-name among the
    common flags, which AddCommonFlags can only store in the package's own
    state, since it is handed the command alone. *)
Record GlobalOptionsT : Type := {
  VPCRegion : string;
  ResourceGroupName : string
}.
End options.

(** ** Collaborators *)

Record World : Type := {
  os_Open : string -> error + os.File;
  (** ssh.ParseAuthorizedKey; the command keeps only its error result. *)
  ssh_ParseAuthorizedKey : string -> option error;
  vpc_NewV1Client : string -> error + vpcv1.VpcV1;
  iam_GetIAMAuth : iam.Authenticator;
  utils_GetAccountID : iam.Authenticator -> error + string;
  utils_GetResourceGroupID : string -> string -> error + string;
  (** VpcV1.CreateKey returns (key, response, err); the response is dropped. *)
  VpcV1_CreateKey :
    vpcv1.VpcV1 -> vpcv1.CreateKeyOptions -> option vpcv1.Key * option error
}.

(** ** Traces *)

Inductive event : Type :=
| EvOpen (path : string) (res : error + os.File)
| EvClose (f : os.File)
| EvParseAuthorizedKey (key : string) (res : option error)
| EvNewV1Client (region : string) (res : error + vpcv1.VpcV1)
| EvGetAccountID (res : error + string)
| EvGetResourceGroupID (name accountID : string) (res : error + string)
| EvCreateKey (opts : vpcv1.CreateKeyOptions)
              (res : option vpcv1.Key * option error)
| EvLogInfo (msg : string) (keysAndValues : list (string * string)).

(** How a Go function call ends: it returns, or it panics. *)
Inductive outcome (A : Type) : Type :=
| Returned (a : A)
| Panicked (msg : string).
Arguments Returned {A} a.
Arguments Panicked {A} msg.

(** A computation: its outcome and the calls it made, oldest first. *)
Definition M (A : Type) : Type := (outcome A * list event)%type.

Definition ret {A} (a : A) : M A := (Returned a, []).

Definition bind {A B} (m : M A) (k : A -> M B) : M B :=
  let (o, t) := m in
  match o with
  | Returned a => let (o', t') := k a in (o', t ++ t')
  | Panicked msg => (Panicked msg, t)
  end.

Definition panic {A} (msg : string) : M A := (Panicked msg, []).

(** A call of a collaborator: the event is logged, the result handed on. *)
Definition call {A} (ev : event) (res : A) : M A := (Returned res, [ev]).

(** Go's defer: the deferred call runs when the surrounding function ends,
    by a return or by a panic. *)
Definition defer {A} (deferred : M unit) (body : M A) : M A :=
  let (o, t) := body in (o, t ++ snd deferred).

(** *p : a nil pointer makes the Go runtime panic. *)
Definition deref {A} (p : option A) : M A :=
  match p with
  | Some a => ret a
  | None => panic "runtime error: invalid memory address or nil pointer dereference"
  end.

Declare Scope go_scope.
Delimit Scope go_scope with go.
Notation "x <- c ;; k" := (bind c (fun x => k))
  (at level 100, c at next level, right associativity) : go_scope.
Notation "c ;;; k" := (bind c (fun _ => k))
  (at level 100, right associativity) : go_scope.
Open Scope go_scope.

Definition result {A} (m : M A) : outcome A := fst m.
Definition trace {A} (m : M A) : list event := snd m.

(** ** The command *)

Record keyCreateOptions : Type := {
  name : string;
  publicKey : string;
  resourceGroupName : string
}.

(** The variables the closures of CreateCommand capture. *)
Record Captured : Type := {
  keyCreateOption : keyCreateOptions;
  filePath : string
}.

(** What the user typed. *)
Record CommandLine : Type := {
  (** --name; [None] when the flag is not given *)
  flagName : option string;
  (** --key-path *)
  flagKeyPath : string;
  (** --public-key *)
  flagPublicKey : string;
  (** the flags of options.AddCommonFlags *)
  GlobalOptions : options.GlobalOptionsT
}.

(** Flag parsing.  keyCreateOption starts as the zero value; StringVar binds
    --name to its name field, --key-path to filePath and --public-key to its
    publicKey field.  No flag is bound to the resourceGroupName field. *)
Definition parseFlags (cl : CommandLine) : Captured :=
  {| keyCreateOption :=
       {| name := match flagName cl with Some n => n | None => EmptyString end;
          publicKey := flagPublicKey cl;
          resourceGroupName := EmptyString |};
     filePath := flagKeyPath cl |}.

Definition flagsNotFound : error :=
  fmt.Errorf "the required flags either key-path of vpc key or the public-key within double quotation marks is not found".

(** The PreRunE closure, lines 66-71. *)
Definition PreRunE (c : Captured) : option error :=
  if Bool.eqb (publicKey (keyCreateOption c) =? EmptyString) (filePath c =? EmptyString)
  then Some flagsNotFound
  else None.

(** The message of the log line at line 128. *)
Definition createdMessage : string := "VPC Key created successfully,".

Section Handlers.
(** The collaborators, and the package variable options.GlobalOptions.  The
    context handed to the lookups is carried along untouched and left out. *)
Variable w : World.
Variable G : options.GlobalOptionsT.

Definition openFile (path : string) : M (error + os.File) :=
  call (EvOpen path (os_Open w path)) (os_Open w path).

Definition closeFile (f : os.File) : M unit :=
  call (EvClose f) tt.

Definition parseAuthorizedKey (key : string) : M (option error) :=
  call (EvParseAuthorizedKey key (ssh_ParseAuthorizedKey w key))
       (ssh_ParseAuthorizedKey w key).

Definition newV1Client (region : string) : M (error + vpcv1.VpcV1) :=
  call (EvNewV1Client region (vpc_NewV1Client w region))
       (vpc_NewV1Client w region).

Definition getAccountID (auth : iam.Authenticator) : M (error + string) :=
  call (EvGetAccountID (utils_GetAccountID w auth)) (utils_GetAccountID w auth).

Definition getResourceGroupID (rg accountID : string) : M (error + string) :=
  call (EvGetResourceGroupID rg accountID (utils_GetResourceGroupID w rg accountID))
       (utils_GetResourceGroupID w rg accountID).

Definition clientCreateKey (c : vpcv1.VpcV1) (o : vpcv1.CreateKeyOptions)
  : M (option vpcv1.Key * option error) :=
  call (EvCreateKey o (VpcV1_CreateKey w c o)) (VpcV1_CreateKey w c o).

Definition logInfo (msg : string) (kvs : list (string * string)) : M unit :=
  call (EvLogInfo msg kvs) tt.

(** Lines 126-130 of createKey: the remote call, the log line, the return. *)
Definition createKeyCall (vpcClient : vpcv1.VpcV1)
           (opts : vpcv1.CreateKeyOptions) : M (option error) :=
  r <- clientCreateKey vpcClient opts ;;
  let (key, err) := r in
  (match err with
   | None =>
       k <- deref key ;;
       n <- deref (vpcv1.KeyName k) ;;
       logInfo createdMessage [("key-name", n)]
   | Some _ => ret tt
   end) ;;;
  ret err.

(** createKey, lines 98-131. *)
Definition createKey (keyCreateOption : keyCreateOptions) : M (option error) :=
  r <- newV1Client (options.VPCRegion G) ;;
  match r with
  | inl err => ret (Some err)
  | inr vpcClient =>
      r <- getAccountID (iam_GetIAMAuth w) ;;
      match r with
      | inl err => ret (Some err)
      | inr accountID =>
          let opts := vpcv1.emptyCreateKeyOptions in
          let opts := vpcv1.SetName opts (name keyCreateOption) in
          let opts := vpcv1.SetPublicKey opts (publicKey keyCreateOption) in
          if negb (resourceGroupName keyCreateOption =? EmptyString) then
            r <- getResourceGroupID (resourceGroupName keyCreateOption) accountID ;;
            match r with
            | inl err => ret (Some err)
            | inr resourceGroupID =>
                let resourceGroup := {| vpcv1.ID := Some resourceGroupID |} in
                createKeyCall vpcClient (vpcv1.SetResourceGroup opts resourceGroup)
            end
          else createKeyCall vpcClient opts
      end
  end.

(** The scan loop: every token overwrites keyCreateOption.publicKey. *)
Definition scanLoop (keyCreateOption : keyCreateOptions) (toks : list string)
  : keyCreateOptions :=
  fold_left
    (fun o tok => {| name := name o; publicKey := tok;
                     resourceGroupName := resourceGroupName o |})
    toks keyCreateOption.

(** Lines 86-92 of RunE: format validation, then createKey. *)
Definition validateAndCreate (keyCreateOption : keyCreateOptions)
  : M (option error) :=
  perr <- parseAuthorizedKey (publicKey keyCreateOption) ;;
  match perr with
  | Some err => ret (Some (fmt.Errorf_w "the provided VPC key is invalid. " err " "))
  | None =>
      cerr <- createKey keyCreateOption ;;
      match cerr with
      | Some err => ret (Some err)
      | None => ret None
      end
  end.

(** The RunE closure, lines 72-93.  The deferred Close is registered right
    after the open succeeds, so the rest of RunE is its body. *)
Definition RunE (c : Captured) : M (option error) :=
  if negb (filePath c =? EmptyString) then
    r <- openFile (filePath c) ;;
    match r with
    | inl err => ret (Some (fmt.Errorf_w "unable to open file. " err EmptyString))
    | inr publicKeyFile =>
        defer (closeFile publicKeyFile)
          (let (toks, _) := bufio.Scan publicKeyFile in
           validateAndCreate (scanLoop (keyCreateOption c) toks))
    end
  else validateAndCreate (keyCreateOption c).
End Handlers.

Definition quote : string := String "034"%char EmptyString.

(** cobra's complaint about a required flag that was not given. *)
Definition requiredFlagNotSet : error :=
  errorString ("required flag(s) " ++ quote ++ "name" ++ quote ++ " not set")%string.

(** cobra's Command.execute, as far as this command goes: PreRunE runs first,
    then the required flags are checked, then RunE runs; the first error ends
    the invocation. *)
Definition Execute (w : World) (cl : CommandLine) : M (option error) :=
  let c := parseFlags cl in
  match PreRunE c with
  | Some err => ret (Some err)
  | None =>
      match flagName cl with
      | None => ret (Some requiredFlagNotSet)
      | Some _ => RunE w (GlobalOptions cl) c
      end
  end.

(** ** Observations on traces *)

Definition isRemote (ev : event) : bool :=
  match ev with
  | EvNewV1Client _ _ | EvGetAccountID _ | EvGetResourceGroupID _ _ _
  | EvCreateKey _ _ => true
  | _ => false
  end.

Definition isCreateKey (ev : event) : bool :=
  match ev with EvCreateKey _ _ => true | _ => false end.

Definition isLog (ev : event) : bool :=
  match ev with EvLogInfo _ _ => true | _ => false end.

Definition isFileIO (ev : event) : bool :=
  match ev with EvOpen _ _ | EvClose _ => true | _ => false end.

Definition remoteCalls (t : list event) : list event := filter isRemote t.
Definition logLines (t : list event) : list event := filter isLog t.

(** The strings handed to ssh.ParseAuthorizedKey. *)
Fixpoint validatedKeys (t : list event) : list string :=
  match t with
  | [] => []
  | EvParseAuthorizedKey k _ :: t' => k :: validatedKeys t'
  | _ :: t' => validatedKeys t'
  end.

(** The requests handed to VpcV1.CreateKey. *)
Fixpoint createKeyRequests (t : list event) : list vpcv1.CreateKeyOptions :=
  match t with
  | [] => []
  | EvCreateKey o _ :: t' => o :: createKeyRequests t'
  | _ :: t' => createKeyRequests t'
  end.

(** The file handles closed. *)
Fixpoint closedFiles (t : list event) : list os.File :=
  match t with
  | [] => []
  | EvClose f :: t' => f :: closedFiles t'
  | _ :: t' => closedFiles t'
  end.





(** A call that did what it was asked to: no error came back. *)
Definition succeeded (ev : event) : bool :=
  match ev with
  | EvOpen _ (inl _) | EvParseAuthorizedKey _ (Some _)
  | EvNewV1Client _ (inl _) | EvGetAccountID (inl _)
  | EvGetResourceGroupID _ _ (inl _) | EvCreateKey _ (_, Some _) => false
  | _ => true
  end.

(** The error a call came back with. *)
Definition failure (ev : event) : option error :=
  match ev with
  | EvOpen _ (inl e) | EvParseAuthorizedKey _ (Some e)
  | EvNewV1Client _ (inl e) | EvGetAccountID (inl e)
  | EvGetResourceGroupID _ _ (inl e) | EvCreateKey _ (_, Some e) => Some e
  | _ => None
  end.

(** The part of a trace before the first call of VpcV1.CreateKey. *)
Fixpoint beforeCreateKey (t : list event) : list event :=
  match t with
  | [] => []
  | ev :: t' => if isCreateKey ev then [] else ev :: beforeCreateKey t'
  end.

(** [contains needle hay]: needle occurs in hay. *)
Fixpoint contains (needle hay : string) : bool :=
  String.prefix needle hay ||
  match hay with
  | EmptyString => false
  | String _ rest => contains needle rest
  end.



(** ** Sample collaborators, for concrete runs *)

Module Sample.
Definition nl : string := String LF EmptyString.

(** A well-formed authorized-key line: the algorithm, the base64 text of an
    ed25519 key blob (the algorithm name and 32 key bytes) and a comment. *)
Definition sshKey : string :=
  "ssh-ed25519 AAAAC3NzaC1lZDI1NTE5AAAAINdamAGCsQq31Uv+08lkBzoO4XLz2qYjJa8CGmj3B1Ea user@example".

Definition noKeyFound : error := errorString "ssh: no key found".

(** A stand-in for ssh.ParseAuthorizedKey on the strings the sample runs
    hand to it: it accepts [sshKey] and answers "ssh: no key found" to the
    others (the empty string, a word without a key field, a cut-off line),
    none of which holds a key. *)
Definition parse (k : string) : option error :=
  if (k =? sshKey)%string then None else Some noKeyFound.

Definition file (text : string) (err : option error) : os.File :=
  {| os.fd := 3; os.contents := text; os.readErr := err |}.

Definition world (opened : error + os.File)
           (client : error + vpcv1.VpcV1)
           (account : error + string)
           (group : error + string)
           (created : option vpcv1.Key * option error) : World :=
  {| os_Open := fun _ => opened;
     ssh_ParseAuthorizedKey := parse;
     vpc_NewV1Client := fun _ => client;
     iam_GetIAMAuth := {| iam.ApiKey := "api-key" |};
     utils_GetAccountID := fun _ => account;
     utils_GetResourceGroupID := fun _ _ => group;
     VpcV1_CreateKey := fun _ _ => created |}.

Definition noSuchFile : error + os.File :=
  inl (errorString "open /keys/id_rsa.pub: no such file or directory").
Definition client : error + vpcv1.VpcV1 := inr {| vpcv1.clientID := 1 |}.
Definition account : error + string := inr "account-1".
Definition group : error + string := inr "group-1".
Definition createdKey (n : string) : option vpcv1.Key * option error :=
  (Some {| vpcv1.KeyName := Some n |}, None).

Definition global (rg : string) : options.GlobalOptionsT :=
  {| options.VPCRegion := "us-south"; options.ResourceGroupName := rg |}.

Definition commandLine (pub path rg : string) : CommandLine :=
  {| flagName := Some "foo"; flagKeyPath := path; flagPublicKey := pub;
     GlobalOptions := global rg |}.

Definition opts (pub rg : string) : keyCreateOptions :=
  {| name := "foo"; publicKey := pub; resourceGroupName := rg |}.

Definition keyPath : string := "/keys/id_rsa.pub".

(** --public-key given, no --key-path, no --resource-group-name. *)
Definition inlineKey : CommandLine := commandLine sshKey EmptyString EmptyString.
(** --key-path given instead. *)
Definition fromFile : CommandLine := commandLine EmptyString keyPath EmptyString.
(** --public-key and --resource-group-name given. *)
Definition withGroup : CommandLine := commandLine sshKey EmptyString "my-group".
(** neither --public-key nor --key-path *)
Definition neither : CommandLine := commandLine EmptyString EmptyString EmptyString.
(** both of them *)
Definition both : CommandLine := commandLine sshKey keyPath EmptyString.
(** a string that is no key *)
Definition notAKey : CommandLine := commandLine "not-a-key" EmptyString EmptyString.

Definition keyFile : os.File := file (sshKey ++ nl)%string None.

(** Everything succeeds. *)
Definition happy : World :=
  world (inr keyFile) client account group (createdKey "foo").


(** The key file does not exist. *)
Definition missingFile : World :=
  world noSuchFile client account group (createdKey "foo").


Definition clientError : error := errorString "region is not set".
Definition noClient : World :=
  world (inr keyFile) (inl clientError) account group (createdKey "foo").

Definition accountError : error := errorString "IBMCLOUD_API_KEY is not set".
Definition noAccount : World :=
  world (inr keyFile) client (inl accountError) group (createdKey "foo").

Definition groupError : error :=
  errorString "could not retrieve resource group id for my-group".
Definition noGroup : World :=
  world (inr keyFile) client account (inl groupError) (createdKey "foo").

Definition remoteError : error := errorString "a key with this name already exists".
Definition duplicate : World :=
  world (inr keyFile) client account group (None, Some remoteError).

(** The remote call succeeds but the key it returns has no name. *)
Definition nameless : World :=
  world (inr keyFile) client account group
        (Some {| vpcv1.KeyName := None |}, None).

Definition request (rg : option vpcv1.ResourceGroupIdentity)
  : vpcv1.CreateKeyOptions :=
  {| vpcv1.Name := Some "foo"; vpcv1.PublicKey := Some sshKey;
     vpcv1.ResourceGroup := rg |}.
End Sample.

(** ** Further observations on traces and strings *)

(** The remote operations the command can call. *)
Inductive remoteCall : Type :=
| CallNewV1Client
| CallGetAccountID
| CallGetResourceGroupID
| CallCreateKey.

(** The remote operations of a trace, in the order they were called. *)
Fixpoint remoteOrder (t : list event) : list remoteCall :=
  match t with
  | [] => []
  | EvNewV1Client _ _ :: t' => CallNewV1Client :: remoteOrder t'
  | EvGetAccountID _ :: t' => CallGetAccountID :: remoteOrder t'
  | EvGetResourceGroupID _ _ _ :: t' => CallGetResourceGroupID :: remoteOrder t'
  | EvCreateKey _ _ :: t' => CallCreateKey :: remoteOrder t'
  | _ :: t' => remoteOrder t'
  end.

(** The paths handed to os.Open. *)
Fixpoint openedPaths (t : list event) : list string :=
  match t with
  | [] => []
  | EvOpen p _ :: t' => p :: openedPaths t'
  | _ :: t' => openedPaths t'
  end.

(** The file handles os.Open returned. *)
Fixpoint openedFiles (t : list event) : list os.File :=
  match t with
  | [] => []
  | EvOpen _ (inr f) :: t' => f :: openedFiles t'
  | _ :: t' => openedFiles t'
  end.

(** [hasChar ch s]: the character occurs in the string. *)
Fixpoint hasChar (ch : ascii) (s : string) : bool :=
  match s with
  | EmptyString => false
  | String c rest => Ascii.eqb c ch || hasChar ch rest
  end.

(** The string ends with a carriage return. *)
Fixpoint endsWithCR (s : string) : bool :=
  match s with
  | EmptyString => false
  | String c EmptyString => Ascii.eqb c CR
  | String _ rest => endsWithCR rest
  end.

(** The text of a one-line file: the line alone, or followed by a newline,
    or by a carriage return and a newline. *)
Inductive lineEnding : Type := NoEnding | UnixEnding | DosEnding.

Definition ending (t : lineEnding) : string :=
  match t with
  | NoEnding => EmptyString
  | UnixEnding => String LF EmptyString
  | DosEnding => String CR (String LF EmptyString)
  end.

(** What of the line ending the scanner buffers with the line: the carriage
    return, which it drops only after the line is complete. *)
Definition buffered (t : lineEnding) : string :=
  match t with
  | DosEnding => String CR EmptyString
  | _ => EmptyString
  end.

(** The command line that names a key file, and the one that gives the key
    inline, everything else alike. *)
Definition viaKeyPath (n : option string) (path : string)
           (g : options.GlobalOptionsT) : CommandLine :=
  {| flagName := n; flagKeyPath := path; flagPublicKey := EmptyString;
     GlobalOptions := g |}.

Definition viaPublicKey (n : option string) (key : string)
           (g : options.GlobalOptionsT) : CommandLine :=
  {| flagName := n; flagKeyPath := EmptyString; flagPublicKey := key;
     GlobalOptions := g |}.

Module Scenario.
Definition dosKeyFile : os.File :=
  Sample.file (Sample.sshKey ++ ending DosEnding)%string None.

(** The key file is a DOS text file. *)
Definition dosWorld : World :=
  Sample.world (inr dosKeyFile) Sample.client Sample.account Sample.group
               (Sample.createdKey "foo").

Definition emptyFile : os.File := Sample.file EmptyString None.

(** The key file is empty. *)
Definition emptyKeyFile : World :=
  Sample.world (inr emptyFile) Sample.client Sample.account Sample.group
               (Sample.createdKey "foo").

(** The remote call succeeds but returns no key at all. *)
Definition keyless : World :=
  Sample.world (inr Sample.keyFile) Sample.client Sample.account Sample.group
               (None, None).
End Scenario.

(** ** Proof tools *)

Ltac unfold_go :=
  unfold validateAndCreate, createKey, createKeyCall,
    openFile, closeFile, parseAuthorizedKey, newV1Client, getAccountID,
    getResourceGroupID, clientCreateKey, logInfo, deref, defer, bind, call,
    ret, panic, result, trace, fmt.Errorf_w, fmt.Errorf in *.

(** Case analysis on an innermost scrutinee that blocks evaluation. *)
Ltac break_match :=
  match goal with
  | |- context [match ?x with _ => _ end] =>
      lazymatch x with
      | context [match _ with _ => _ end] => fail
      | _ => destruct x eqn:?
      end
  end.

(** Run a handler symbolically: one case per way its collaborators answer. *)
Ltac run := unfold_go; cbn; repeat (break_match; cbn).

(** ** The scan loop *)

Lemma scanLoop_name (k : keyCreateOptions) (toks : list string) :
  name (scanLoop k toks) = name k.
Proof.
  revert k; induction toks as [|t toks IH]; intros k; cbn; [reflexivity|].
  unfold scanLoop in IH; rewrite IH; reflexivity.
Qed.

Lemma scanLoop_resourceGroupName (k : keyCreateOptions) (toks : list string) :
  resourceGroupName (scanLoop k toks) = resourceGroupName k.
Proof.
  revert k; induction toks as [|t toks IH]; intros k; cbn; [reflexivity|].
  unfold scanLoop in IH; rewrite IH; reflexivity.
Qed.

Lemma last_cons_default {A} (x : A) (l : list A) (d d' : A) :
  last (x :: l) d = last (x :: l) d'.
Proof.
  revert x; induction l as [|y l IH]; intros x; [reflexivity|].
  change (last (y :: l) d = last (y :: l) d'). apply IH.
Qed.

Lemma scanLoop_publicKey (k : keyCreateOptions) (toks : list string) :
  publicKey (scanLoop k toks) = last toks (publicKey k).
Proof.
  revert k; induction toks as [|t toks IH]; intros k; [reflexivity|].
  change (scanLoop k (t :: toks))
    with (scanLoop {| name := name k; publicKey := t;
                      resourceGroupName := resourceGroupName k |} toks).
  rewrite IH; cbn [publicKey].
  destruct toks as [|s toks]; [reflexivity|].
  change (last (t :: s :: toks) (publicKey k)) with (last (s :: toks) (publicKey k)).
  apply last_cons_default.
Qed.

(** The tokens of a scan do not depend on how the reads ended. *)
Lemma Scan_tokens (f : os.File) :
  fst (bufio.Scan f) = fst (bufio.scanFrom EmptyString (os.contents f)).
Proof.
  unfold bufio.Scan. destruct (bufio.scanFrom _ _); reflexivity.
Qed.

Create Rewrite HintDb scan_loop.
#[global] Hint Rewrite scanLoop_name scanLoop_resourceGroupName scanLoop_publicKey
  : scan_loop.

Arguments scanLoop : simpl never.
Arguments bufio.Scan : simpl never.

(** ** createKey, case by case *)

Section CreateKeyFacts.
Variable w : World.
Variable G : options.GlobalOptionsT.
Variable o : keyCreateOptions.

Lemma createKey_client_error (e : error) :
  vpc_NewV1Client w (options.VPCRegion G) = inl e ->
  createKey w G o = (Returned (Some e), [EvNewV1Client (options.VPCRegion G) (inl e)]).
Proof. intros H. run; congruence. Qed.

Lemma createKey_account_error (c : vpcv1.VpcV1) (e : error) :
  vpc_NewV1Client w (options.VPCRegion G) = inr c ->
  utils_GetAccountID w (iam_GetIAMAuth w) = inl e ->
  createKey w G o =
    (Returned (Some e),
     [EvNewV1Client (options.VPCRegion G) (inr c); EvGetAccountID (inl e)]).
Proof.
  intros H1 H2. unfold_go. rewrite H1; cbn. rewrite H2; cbn.
  reflexivity.
Qed.

Lemma createKey_group_error (c : vpcv1.VpcV1) (a : string) (e : error) :
  vpc_NewV1Client w (options.VPCRegion G) = inr c ->
  utils_GetAccountID w (iam_GetIAMAuth w) = inr a ->
  resourceGroupName o <> EmptyString ->
  utils_GetResourceGroupID w (resourceGroupName o) a = inl e ->
  createKey w G o =
    (Returned (Some e),
     [EvNewV1Client (options.VPCRegion G) (inr c); EvGetAccountID (inr a);
      EvGetResourceGroupID (resourceGroupName o) a (inl e)]).
Proof.
  intros H1 H2 H3 H4. unfold_go. rewrite H1; cbn.
  rewrite H2; cbn. apply String.eqb_neq in H3. rewrite H3; cbn.
  rewrite H4; cbn. reflexivity.
Qed.
End CreateKeyFacts.

(** ** Running the whole command *)

Ltac unfold_cmd := unfold Execute, RunE in *.

(** Settle a goal about a trace that has become a concrete list. *)
Ltac settle_step :=
  match goal with
  | H : _ \/ _ |- _ => destruct H
  | H : False |- _ => destruct H
  | H : _ /\ _ |- _ => destruct H
  | H : exists _, _ |- _ => destruct H
  | H : ?x = _ |- _ => is_var x; subst x
  | H : _ = ?x |- _ => is_var x; subst x
  | H : _ = _ |- _ => discriminate H
  | H : _ = _ |- _ => injection H; clear H; intros
  end.

Ltac settle :=
  unfold not; intros; repeat (cbn in *; settle_step); cbn in *;
  try congruence; auto.

(** Choose an event of a concrete trace; later goals may reject the choice. *)
Ltac pick_event :=
  cbn; ((left; reflexivity) + (right; pick_event)).

Ltac run_cmd :=
  unfold_cmd; unfold_go; cbn;
  repeat (break_match; cbn; autorewrite with scan_loop; cbn).

Lemma createKey_ordered (w : World) (G : options.GlobalOptionsT)
      (o : keyCreateOptions) :
  createKeyRequests (trace (createKey w G o)) <> [] ->
  forallb succeeded (beforeCreateKey (trace (createKey w G o))) = true.
Proof. run; settle. Qed.

Lemma Execute_ordered (w : World) (cl : CommandLine) :
  createKeyRequests (trace (Execute w cl)) <> [] ->
  forallb succeeded (beforeCreateKey (trace (Execute w cl))) = true.
Proof. run_cmd; settle. Qed.

(** A remote call other than CreateKey that fails ends the command with
    that very error, before any key is created. *)
Lemma Execute_remote_failure (w : World) (cl : CommandLine) (ev : event) (e : error) :
  In ev (trace (Execute w cl)) ->
  isRemote ev = true -> isCreateKey ev = false -> failure ev = Some e ->
  result (Execute w cl) = Returned (Some e) /\
  createKeyRequests (trace (Execute w cl)) = [].
Proof. revert ev e. run_cmd; settle. Qed.

(** The command never looks a resource group up, and never sends one. *)
Lemma Execute_no_resource_group (w : World) (cl : CommandLine) :
  (forall n a r, ~ In (EvGetResourceGroupID n a r) (trace (Execute w cl))) /\
  (forall req, In req (createKeyRequests (trace (Execute w cl))) ->
               vpcv1.ResourceGroup req = None).
Proof. run_cmd; split; settle. Qed.

(** What createKey puts in the request, in terms of its own argument. *)
Lemma createKey_request_fields (w : World) (G : options.GlobalOptionsT)
      (o : keyCreateOptions) (req : vpcv1.CreateKeyOptions) :
  In req (createKeyRequests (trace (createKey w G o))) ->
  vpcv1.Name req = Some (name o) /\
  vpcv1.PublicKey req = Some (publicKey o) /\
  (resourceGroupName o = EmptyString -> vpcv1.ResourceGroup req = None) /\
  (resourceGroupName o <> EmptyString ->
   exists a id,
     utils_GetAccountID w (iam_GetIAMAuth w) = inr a /\
     utils_GetResourceGroupID w (resourceGroupName o) a = inr id /\
     vpcv1.ResourceGroup req = Some {| vpcv1.ID := Some id |}).
Proof.
  revert req. unfold_go; cbn.
  destruct (vpc_NewV1Client w _); cbn; [settle|].
  destruct (utils_GetAccountID w _) as [|a] eqn:Ha; cbn; [settle|].
  destruct (resourceGroupName o =? EmptyString) eqn:Hrg; cbn.
  - apply String.eqb_eq in Hrg.
    repeat (break_match; cbn); settle; repeat split; auto; intros; congruence.
  - apply String.eqb_neq in Hrg.
    destruct (utils_GetResourceGroupID w _ a) as [|id] eqn:Hid; cbn; [settle|].
    repeat (break_match; cbn); settle; repeat split; auto; intros;
      try congruence; exists a, id; auto.
Qed.

(** ** Pre-run validation *)

(** C2.  When --public-key and --key-path are both empty or both non-empty,
    PreRunE fails with the configuration error, which names both flags, and
    the command ends with it having opened no file and called no
    collaborator.  When exactly one of the two is non-empty, PreRunE
    succeeds. *)
Theorem prerun_exactly_one_source (w : World) (cl : CommandLine) :
  ((flagPublicKey cl = EmptyString /\ flagKeyPath cl = EmptyString) \/
   (flagPublicKey cl <> EmptyString /\ flagKeyPath cl <> EmptyString) ->
   PreRunE (parseFlags cl) = Some flagsNotFound /\
   Execute w cl = (Returned (Some flagsNotFound), [])) /\
  ((flagPublicKey cl = EmptyString /\ flagKeyPath cl <> EmptyString) \/
   (flagPublicKey cl <> EmptyString /\ flagKeyPath cl = EmptyString) ->
   PreRunE (parseFlags cl) = None) /\
  contains "key-path" (Error flagsNotFound) = true /\
  contains "public-key" (Error flagsNotFound) = true.
Proof.
  unfold Execute, PreRunE; cbn [parseFlags keyCreateOption publicKey filePath].
  split; [|split; [|split; reflexivity]].
  - intros [[Hk Hp] | [Hk Hp]].
    + rewrite Hk, Hp; split; reflexivity.
    + apply String.eqb_neq in Hk, Hp. rewrite Hk, Hp; split; reflexivity.
  - intros [[Hk Hp] | [Hk Hp]].
    + apply String.eqb_neq in Hp. rewrite Hk, Hp; reflexivity.
    + apply String.eqb_neq in Hk. rewrite Hk, Hp; reflexivity.
Qed.

Lemma prerun_exactly_one_source_witness :
  Execute Sample.happy Sample.neither = (Returned (Some flagsNotFound), []) /\
  Execute Sample.happy Sample.both = (Returned (Some flagsNotFound), []) /\
  PreRunE (parseFlags Sample.inlineKey) = None /\
  PreRunE (parseFlags Sample.fromFile) = None.
Proof.
  refine (conj _ (conj _ (conj _ _))).
  - apply (prerun_exactly_one_source Sample.happy Sample.neither).
    left; split; reflexivity.
  - apply (prerun_exactly_one_source Sample.happy Sample.both).
    right; split; discriminate.
  - apply (prerun_exactly_one_source Sample.happy Sample.inlineKey).
    right; split; [discriminate | reflexivity].
  - apply (prerun_exactly_one_source Sample.happy Sample.fromFile).
    left; split; [reflexivity | discriminate].
Defined.

(** ** Format validation *)

(** C3.  When the string handed to ssh.ParseAuthorizedKey is rejected with
    error e, RunE returns e wrapped behind the text
    "the provided VPC key is invalid. " and makes no remote call: no client
    construction, no account or resource-group lookup, no create-key. *)
Theorem invalid_key_rejected_before_remote_calls
        (w : World) (G : options.GlobalOptionsT) (c : Captured)
        (k : string) (e : error) :
  In k (validatedKeys (trace (RunE w G c))) ->
  ssh_ParseAuthorizedKey w k = Some e ->
  result (RunE w G c) =
    Returned (Some (wrapError "the provided VPC key is invalid. " e " ")) /\
  Unwrap (wrapError "the provided VPC key is invalid. " e " ") = Some e /\
  remoteCalls (trace (RunE w G c)) = [].
Proof.
  revert k e. run_cmd; settle; repeat split; congruence.
Qed.

Lemma invalid_key_rejected_before_remote_calls_witness :
  result (RunE Sample.happy (GlobalOptions Sample.notAKey)
               (parseFlags Sample.notAKey)) =
    Returned (Some (wrapError "the provided VPC key is invalid. "
                              Sample.noKeyFound " ")) /\
  remoteCalls (trace (RunE Sample.happy (GlobalOptions Sample.notAKey)
                           (parseFlags Sample.notAKey))) = [].
Proof.
  destruct (invalid_key_rejected_before_remote_calls
              Sample.happy (GlobalOptions Sample.notAKey)
              (parseFlags Sample.notAKey) "not-a-key" Sample.noKeyFound)
    as (Hr & _ & Ht).
  - left; reflexivity.
  - reflexivity.
  - split; [exact Hr | exact Ht].
Defined.

(** ** Ordering of the remote calls *)

(** X11.  createKey, for any options it is given, calls VpcV1.CreateKey
    only after every earlier step has succeeded.  When client construction,
    the account lookup or, for a non-empty resourceGroupName field, the
    resource-group lookup returns an error, createKey returns that very error
    and sends no create-key request; in any run that does send one, every
    call before it succeeded.  In a run of the command, a remote call other
    than create-key that fails ends the command with that error unchanged and
    with no request sent, and a request is sent only after calls that all
    succeeded. *)
Theorem create_key_only_after_success
        (w : World) (G : options.GlobalOptionsT) (o : keyCreateOptions)
        (cl : CommandLine) :
  (forall e,
      vpc_NewV1Client w (options.VPCRegion G) = inl e ->
      result (createKey w G o) = Returned (Some e) /\
      createKeyRequests (trace (createKey w G o)) = []) /\
  (forall c e,
      vpc_NewV1Client w (options.VPCRegion G) = inr c ->
      utils_GetAccountID w (iam_GetIAMAuth w) = inl e ->
      result (createKey w G o) = Returned (Some e) /\
      createKeyRequests (trace (createKey w G o)) = []) /\
  (forall c a e,
      vpc_NewV1Client w (options.VPCRegion G) = inr c ->
      utils_GetAccountID w (iam_GetIAMAuth w) = inr a ->
      resourceGroupName o <> EmptyString ->
      utils_GetResourceGroupID w (resourceGroupName o) a = inl e ->
      result (createKey w G o) = Returned (Some e) /\
      createKeyRequests (trace (createKey w G o)) = []) /\
  (createKeyRequests (trace (createKey w G o)) <> [] ->
   forallb succeeded (beforeCreateKey (trace (createKey w G o))) = true) /\
  (forall ev e,
      In ev (trace (Execute w cl)) ->
      isRemote ev = true -> isCreateKey ev = false -> failure ev = Some e ->
      result (Execute w cl) = Returned (Some e) /\
      createKeyRequests (trace (Execute w cl)) = []) /\
  (createKeyRequests (trace (Execute w cl)) <> [] ->
   forallb succeeded (beforeCreateKey (trace (Execute w cl))) = true).
Proof.
  split; [|split; [|split; [|split; [|split]]]].
  - intros e H. rewrite (createKey_client_error w G o e H). split; reflexivity.
  - intros c e H1 H2. rewrite (createKey_account_error w G o c e H1 H2).
    split; reflexivity.
  - intros c a e H1 H2 H3 H4.
    rewrite (createKey_group_error w G o c a e H1 H2 H3 H4). split; reflexivity.
  - apply createKey_ordered.
  - intros ev e. apply Execute_remote_failure.
  - apply Execute_ordered.
Qed.

Lemma create_key_only_after_success_witness :
  (result (createKey Sample.noClient (Sample.global EmptyString)
                     (Sample.opts Sample.sshKey "my-group"))
   = Returned (Some Sample.clientError)) /\
  (result (createKey Sample.noAccount (Sample.global EmptyString)
                     (Sample.opts Sample.sshKey "my-group"))
   = Returned (Some Sample.accountError)) /\
  (result (createKey Sample.noGroup (Sample.global EmptyString)
                     (Sample.opts Sample.sshKey "my-group"))
   = Returned (Some Sample.groupError) /\
   createKeyRequests (trace (createKey Sample.noGroup (Sample.global EmptyString)
                                       (Sample.opts Sample.sshKey "my-group")))
   = []) /\
  forallb succeeded
    (beforeCreateKey (trace (Execute Sample.happy Sample.inlineKey))) = true.
Proof.
  refine (conj _ (conj _ (conj _ _))).
  - apply (create_key_only_after_success
             Sample.noClient (Sample.global EmptyString)
             (Sample.opts Sample.sshKey "my-group") Sample.inlineKey).
    reflexivity.
  - apply (proj1 (proj2 (create_key_only_after_success
             Sample.noAccount (Sample.global EmptyString)
             (Sample.opts Sample.sshKey "my-group") Sample.inlineKey))
             {| vpcv1.clientID := 1 |}); reflexivity.
  - apply (proj1 (proj2 (proj2 (create_key_only_after_success
             Sample.noGroup (Sample.global EmptyString)
             (Sample.opts Sample.sshKey "my-group") Sample.inlineKey)))
             {| vpcv1.clientID := 1 |} "account-1");
      [reflexivity | reflexivity | discriminate | reflexivity].
  - apply (proj2 (proj2 (proj2 (proj2 (proj2 (create_key_only_after_success
             Sample.happy (Sample.global EmptyString)
             (Sample.opts Sample.sshKey EmptyString) Sample.inlineKey)))))).
    discriminate.
Defined.

(** ** The create-key request *)

(** Every request the command sends carries the --name value and the
    string that was validated. *)
Lemma Execute_request_fields (w : World) (cl : CommandLine)
      (req : vpcv1.CreateKeyOptions) :
  In req (createKeyRequests (trace (Execute w cl))) ->
  vpcv1.Name req = flagName cl /\
  (exists k, validatedKeys (trace (Execute w cl)) = [k] /\
             vpcv1.PublicKey req = Some k).
Proof.
  revert req. run_cmd; settle; split; eauto.
Qed.

(** C5.  The command called with --name, a --public-key that
    ssh.ParseAuthorizedKey accepts and a non-empty --resource-group-name,
    client construction and account lookup succeeding: the one request sent
    has the name and the public key, its resource-group field is empty, and
    the resource group was never looked up, although the flag is not empty. *)
Theorem resource_group_flag_not_forwarded
        (w : World) (n k region rg : string) (c : vpcv1.VpcV1) (a : string) :
  k <> EmptyString ->
  rg <> EmptyString ->
  ssh_ParseAuthorizedKey w k = None ->
  vpc_NewV1Client w region = inr c ->
  utils_GetAccountID w (iam_GetIAMAuth w) = inr a ->
  options.ResourceGroupName
    (GlobalOptions
       (viaPublicKey (Some n) k
          {| options.VPCRegion := region; options.ResourceGroupName := rg |}))
  <> EmptyString /\
  createKeyRequests
    (trace (Execute w
       (viaPublicKey (Some n) k
          {| options.VPCRegion := region; options.ResourceGroupName := rg |})))
  = [ {| vpcv1.Name := Some n;
         vpcv1.PublicKey := Some k;
         vpcv1.ResourceGroup := None |} ] /\
  remoteOrder
    (trace (Execute w
       (viaPublicKey (Some n) k
          {| options.VPCRegion := region; options.ResourceGroupName := rg |})))
  = [CallNewV1Client; CallGetAccountID; CallCreateKey].
Proof.
  intros Hk Hrg Hparse Hclient Hacc.
  split; [exact Hrg|].
  apply String.eqb_neq in Hk.
  unfold Execute, PreRunE, RunE.
  cbn [parseFlags viaPublicKey keyCreateOption publicKey filePath
       flagName flagKeyPath flagPublicKey GlobalOptions].
  rewrite Hk. cbn [String.eqb Bool.eqb negb].
  unfold_go. cbn [publicKey name resourceGroupName options.VPCRegion].
  rewrite Hparse; cbn. rewrite Hclient; cbn. rewrite Hacc; cbn.
  repeat (break_match; cbn); split; reflexivity.
Qed.

Lemma resource_group_flag_not_forwarded_witness :
  createKeyRequests (trace (Execute Sample.happy Sample.withGroup))
  = [ {| vpcv1.Name := Some "foo";
         vpcv1.PublicKey := Some Sample.sshKey;
         vpcv1.ResourceGroup := None |} ] /\
  remoteOrder (trace (Execute Sample.happy Sample.withGroup))
  = [CallNewV1Client; CallGetAccountID; CallCreateKey].
Proof.
  apply (resource_group_flag_not_forwarded
           Sample.happy "foo" Sample.sshKey "us-south" "my-group"
           {| vpcv1.clientID := 1 |} "account-1");
    [discriminate | discriminate | reflexivity | reflexivity | reflexivity].
Defined.

(** C4.  The command called with --name, a --public-key that
    ssh.ParseAuthorizedKey accepts and a non-empty --resource-group-name that
    does not resolve (the lookup would return an error), the other
    collaborators succeeding: the lookup is never made, the create-key request
    is sent all the same, and the command returns nil after logging the
    created key, instead of returning the lookup error with no request
    sent. *)
Theorem unresolved_group_still_creates_key
        (w : World) (n k region rg : string) (c : vpcv1.VpcV1) (a : string)
        (e : error) (N : string) :
  k <> EmptyString ->
  rg <> EmptyString ->
  ssh_ParseAuthorizedKey w k = None ->
  vpc_NewV1Client w region = inr c ->
  utils_GetAccountID w (iam_GetIAMAuth w) = inr a ->
  utils_GetResourceGroupID w rg a = inl e ->
  VpcV1_CreateKey w c {| vpcv1.Name := Some n; vpcv1.PublicKey := Some k;
                         vpcv1.ResourceGroup := None |}
  = (Some {| vpcv1.KeyName := Some N |}, None) ->
  Execute w
    (viaPublicKey (Some n) k
       {| options.VPCRegion := region; options.ResourceGroupName := rg |})
  = (Returned None,
     [EvParseAuthorizedKey k None;
      EvNewV1Client region (inr c);
      EvGetAccountID (inr a);
      EvCreateKey {| vpcv1.Name := Some n; vpcv1.PublicKey := Some k;
                     vpcv1.ResourceGroup := None |}
                  (Some {| vpcv1.KeyName := Some N |}, None);
      EvLogInfo createdMessage [("key-name", N)]]).
Proof.
  intros Hk Hrg Hparse Hclient Hacc Hgroup Hcreate.
  apply String.eqb_neq in Hk.
  unfold Execute, PreRunE, RunE.
  cbn [parseFlags viaPublicKey keyCreateOption publicKey filePath
       flagName flagKeyPath flagPublicKey GlobalOptions].
  rewrite Hk. cbn [String.eqb Bool.eqb negb].
  unfold_go. cbn [publicKey name resourceGroupName options.VPCRegion].
  rewrite Hparse; cbn. rewrite Hclient; cbn. rewrite Hacc; cbn.
  unfold vpcv1.SetPublicKey, vpcv1.SetName, vpcv1.emptyCreateKeyOptions; cbn.
  rewrite Hcreate; cbn. reflexivity.
Qed.

Lemma unresolved_group_still_creates_key_witness :
  result (Execute Sample.noGroup Sample.withGroup) = Returned None /\
  createKeyRequests (trace (Execute Sample.noGroup Sample.withGroup))
  = [Sample.request None].
Proof.
  change Sample.withGroup
    with (viaPublicKey (Some "foo") Sample.sshKey
            {| options.VPCRegion := "us-south";
               options.ResourceGroupName := "my-group" |}).
  rewrite (unresolved_group_still_creates_key
             Sample.noGroup "foo" Sample.sshKey "us-south" "my-group"
             {| vpcv1.clientID := 1 |} "account-1" Sample.groupError "foo").
  - split; reflexivity.
  - discriminate.
  - discriminate.
  - reflexivity.
  - reflexivity.
  - reflexivity.
  - reflexivity.
  - reflexivity.
Defined.

(** ** Success and failure *)

(** C6.  When the create-key call returns a key named N and no error, the
    command returns nil and logs exactly one line, the message
    "VPC Key created successfully," with key-name N.  When the command
    returns an error, which it does whenever PreRunE or one of its calls
    fails, it logs nothing; and a nil return always comes with that one
    log line. *)
Theorem success_logged_once (w : World) (cl : CommandLine) :
  (forall req N,
      In (EvCreateKey req (Some {| vpcv1.KeyName := Some N |}, None))
         (trace (Execute w cl)) ->
      result (Execute w cl) = Returned None /\
      logLines (trace (Execute w cl))
      = [EvLogInfo createdMessage [("key-name", N)]]) /\
  (forall e,
      result (Execute w cl) = Returned (Some e) ->
      logLines (trace (Execute w cl)) = []) /\
  (forall ev,
      In ev (trace (Execute w cl)) -> succeeded ev = false ->
      exists e, result (Execute w cl) = Returned (Some e)) /\
  (forall e,
      PreRunE (parseFlags cl) = Some e ->
      result (Execute w cl) = Returned (Some e)) /\
  (result (Execute w cl) = Returned None ->
   exists N, logLines (trace (Execute w cl))
             = [EvLogInfo createdMessage [("key-name", N)]]) /\
  String.prefix "VPC Key created successfully" createdMessage = true.
Proof.
  split; [|split; [|split; [|split; [|split]]]]; try reflexivity.
  - run_cmd; settle.
  - run_cmd; settle.
  - run_cmd; settle; eauto.
  - run_cmd; settle.
  - run_cmd; settle; eauto.
Qed.

Lemma success_logged_once_witness :
  (result (Execute Sample.happy Sample.inlineKey) = Returned None /\
   logLines (trace (Execute Sample.happy Sample.inlineKey))
   = [EvLogInfo createdMessage [("key-name", "foo")]]) /\
  logLines (trace (Execute Sample.duplicate Sample.inlineKey)) = [].
Proof.
  split.
  - apply (proj1 (success_logged_once Sample.happy Sample.inlineKey)
                 (Sample.request None) "foo").
    cbn. do 3 right. left. reflexivity.
  - apply (proj1 (proj2 (success_logged_once Sample.duplicate Sample.inlineKey))
                 Sample.remoteError).
    reflexivity.
Defined.

(** ** Which errors are wrapped *)



(** ** The key file handle *)

(** Format validation and createKey neither open nor close a file. *)
Lemma validateAndCreate_no_file_io (w : World) (G : options.GlobalOptionsT)
      (o : keyCreateOptions) :
  filter isFileIO (trace (validateAndCreate w G o)) = [].
Proof. run; reflexivity. Qed.

Lemma closedFiles_app (t1 t2 : list event) :
  closedFiles (t1 ++ t2) = closedFiles t1 ++ closedFiles t2.
Proof.
  induction t1 as [|ev t1 IH]; [reflexivity|].
  destruct ev; cbn; rewrite IH; reflexivity.
Qed.

Lemma closedFiles_no_file_io (t : list event) :
  filter isFileIO t = [] -> closedFiles t = [].
Proof.
  induction t as [|ev t IH]; [reflexivity|].
  destruct ev; cbn; intros H; try discriminate; auto.
Qed.

(** C8.  When os.Open succeeds, the trace of RunE starts with that open and
    ends with the close of the handle it returned, with no file operation in
    between: the handle is closed exactly once, as the last thing RunE does,
    whether RunE returns nil, returns an error or panics. *)
Theorem opened_key_file_always_closed
        (w : World) (G : options.GlobalOptionsT) (c : Captured) (f : os.File) :
  filePath c <> EmptyString ->
  os_Open w (filePath c) = inr f ->
  exists mid,
    trace (RunE w G c) = EvOpen (filePath c) (inr f) :: mid ++ [EvClose f] /\
    filter isFileIO mid = [] /\
    closedFiles (trace (RunE w G c)) = [f].
Proof.
  intros Hpath Hopen. apply String.eqb_neq in Hpath.
  unfold RunE, openFile, closeFile, defer, bind, call, trace.
  rewrite Hpath, Hopen.
  destruct (bufio.Scan f) as [toks serr].
  pose proof (validateAndCreate_no_file_io w G (scanLoop (keyCreateOption c) toks)) as Hio.
  unfold trace in Hio.
  destruct (validateAndCreate w G (scanLoop (keyCreateOption c) toks)) as [r mid].
  cbn in *. exists mid. split; [reflexivity|]. split; [exact Hio|].
  rewrite closedFiles_app, (closedFiles_no_file_io mid Hio). reflexivity.
Qed.

Lemma opened_key_file_always_closed_witness :
  exists mid,
    trace (RunE Sample.nameless (GlobalOptions Sample.fromFile)
                (parseFlags Sample.fromFile))
    = EvOpen Sample.keyPath (inr Sample.keyFile) :: mid ++ [EvClose Sample.keyFile] /\
    filter isFileIO mid = [] /\
    closedFiles (trace (RunE Sample.nameless (GlobalOptions Sample.fromFile)
                             (parseFlags Sample.fromFile)))
    = [Sample.keyFile].
Proof.
  apply (opened_key_file_always_closed
           Sample.nameless (GlobalOptions Sample.fromFile)
           (parseFlags Sample.fromFile) Sample.keyFile).
  - discriminate.
  - reflexivity.
Defined.

(** Without a successful open there is nothing to close. *)
Lemma nothing_closed_without_open (w : World) (G : options.GlobalOptionsT)
      (c : Captured) :
  (filePath c = EmptyString \/ exists e, os_Open w (filePath c) = inl e) ->
  closedFiles (trace (RunE w G c)) = [].
Proof.
  intros [Hp | [e He]]; unfold RunE.
  - rewrite Hp; cbn [String.eqb negb].
    apply closedFiles_no_file_io, validateAndCreate_no_file_io.
  - destruct (negb (filePath c =? EmptyString)).
    + unfold openFile, bind, call, ret, trace. rewrite He. reflexivity.
    + apply closedFiles_no_file_io, validateAndCreate_no_file_io.
Qed.

(** ** The nil dereference on the success path *)

(** C9.  When the create-key call returns a nil error together with a nil
    key, or with a key whose Name is nil, RunE panics and logs nothing.  A
    nil return of RunE therefore comes only with a response whose key has a
    name. *)
Theorem nil_key_name_panics
        (w : World) (G : options.GlobalOptionsT) (c : Captured) :
  (forall req k,
      In (EvCreateKey req (k, None)) (trace (RunE w G c)) ->
      k = None \/ (exists k', k = Some k' /\ vpcv1.KeyName k' = None) ->
      (exists msg, result (RunE w G c) = Panicked msg) /\
      logLines (trace (RunE w G c)) = []) /\
  (result (RunE w G c) = Returned None ->
   exists req k N,
     In (EvCreateKey req (Some k, None)) (trace (RunE w G c)) /\
     vpcv1.KeyName k = Some N).
Proof.
  split.
  - run_cmd; settle; split; eauto.
  - run_cmd; settle.
    all: do 3 eexists; split; [pick_event | eassumption].
Qed.

Lemma nil_key_name_panics_witness :
  (exists msg,
      result (RunE Sample.nameless (GlobalOptions Sample.inlineKey)
                   (parseFlags Sample.inlineKey)) = Panicked msg) /\
  logLines (trace (RunE Sample.nameless (GlobalOptions Sample.inlineKey)
                        (parseFlags Sample.inlineKey))) = [].
Proof.
  apply (proj1 (nil_key_name_panics Sample.nameless (GlobalOptions Sample.inlineKey)
                                    (parseFlags Sample.inlineKey))
               (Sample.request None) (Some {| vpcv1.KeyName := None |})).
  - cbn. do 3 right. left. reflexivity.
  - right. eexists. split; reflexivity.
Defined.

(** ** Read errors *)



Lemma filter_no_file_io (t : list event) :
  filter isFileIO t = [] ->
  filter (fun ev => negb (isFileIO ev)) t = t.
Proof.
  induction t as [|ev t IH]; [reflexivity|].
  destruct ev; cbn; intros H; try discriminate; rewrite (IH H); reflexivity.
Qed.

(** RunE after a successful open, spelled out. *)
Lemma RunE_opened (w : World) (G : options.GlobalOptionsT) (c : Captured)
      (f : os.File) :
  filePath c <> EmptyString ->
  os_Open w (filePath c) = inr f ->
  RunE w G c =
    (result (validateAndCreate w G (scanLoop (keyCreateOption c) (fst (bufio.Scan f)))),
     EvOpen (filePath c) (inr f)
       :: trace (validateAndCreate w G
                   (scanLoop (keyCreateOption c) (fst (bufio.Scan f))))
       ++ [EvClose f]).
Proof.
  intros Hpath Hopen. apply String.eqb_neq in Hpath.
  unfold RunE, openFile, closeFile, defer, bind, call, trace, result.
  rewrite Hpath, Hopen.
  destruct (bufio.Scan f) as [toks serr].
  cbn [negb fst snd].
  destruct (validateAndCreate w G (scanLoop (keyCreateOption c) toks)).
  reflexivity.
Qed.

Lemma validatedKeys_app (t1 t2 : list event) :
  validatedKeys (t1 ++ t2) = validatedKeys t1 ++ validatedKeys t2.
Proof.
  induction t1 as [|ev t1 IH]; [reflexivity|].
  destruct ev; cbn; rewrite IH; reflexivity.
Qed.


(** Format validation sees the publicKey field, and so does the request. *)
Lemma validateAndCreate_key (w : World) (G : options.GlobalOptionsT)
      (o : keyCreateOptions) :
  validatedKeys (trace (validateAndCreate w G o)) = [publicKey o] /\
  (forall req, In req (createKeyRequests (trace (validateAndCreate w G o))) ->
               vpcv1.PublicKey req = Some (publicKey o)).
Proof. run; split; settle. Qed.



(** ** Which line of the key file is used *)





(** * Further properties of the command *)

(** ** The request createKey assembles *)

(** X1.  Whatever options createKey is given: the client is built for the
    region of the global options; a resource group is looked up only under
    the name in the options and with the account ID that the account lookup
    returned; and a request that is sent carries the name and the public key
    of the options, with no resource group when resourceGroupName is empty and
    otherwise with exactly the ID the lookup returned. *)
Theorem createKey_assembles_request
        (w : World) (G : options.GlobalOptionsT) (o : keyCreateOptions) :
  (forall region r,
      In (EvNewV1Client region r) (trace (createKey w G o)) ->
      region = options.VPCRegion G) /\
  (forall n a r,
      In (EvGetResourceGroupID n a r) (trace (createKey w G o)) ->
      n = resourceGroupName o /\ n <> EmptyString /\
      utils_GetAccountID w (iam_GetIAMAuth w) = inr a) /\
  (forall req,
      In req (createKeyRequests (trace (createKey w G o))) ->
      vpcv1.Name req = Some (name o) /\
      vpcv1.PublicKey req = Some (publicKey o) /\
      (resourceGroupName o = EmptyString -> vpcv1.ResourceGroup req = None) /\
      (resourceGroupName o <> EmptyString ->
       exists a id,
         In (EvGetResourceGroupID (resourceGroupName o) a (inr id))
            (trace (createKey w G o)) /\
         vpcv1.ResourceGroup req = Some {| vpcv1.ID := Some id |})).
Proof.
  split; [|split].
  - run; settle.
  - unfold_go; cbn.
    destruct (vpc_NewV1Client w _); cbn; [settle|].
    destruct (utils_GetAccountID w _) as [|a]; cbn; [settle|].
    destruct (resourceGroupName o =? EmptyString) eqn:Hrg; cbn.
    + repeat (break_match; cbn); settle.
    + apply String.eqb_neq in Hrg.
      repeat (break_match; cbn); settle.
  - unfold_go; cbn.
    destruct (vpc_NewV1Client w _); cbn; [settle|].
    destruct (utils_GetAccountID w _) as [|a]; cbn; [settle|].
    destruct (resourceGroupName o =? EmptyString) eqn:Hrg; cbn.
    + apply String.eqb_eq in Hrg.
      repeat (break_match; cbn); settle; repeat split; auto; intros; congruence.
    + apply String.eqb_neq in Hrg.
      destruct (utils_GetResourceGroupID w _ a) as [|id]; cbn; [settle|].
      repeat (break_match; cbn); settle; repeat split; auto; intros;
        try congruence; exists a, id.
      all: split; [pick_event | reflexivity].
Qed.

Lemma createKey_assembles_request_witness :
  vpcv1.Name (Sample.request (Some {| vpcv1.ID := Some "group-1" |})) = Some "foo" /\
  vpcv1.ResourceGroup (Sample.request None) = None.
Proof.
  split.
  - apply (proj2 (proj2 (createKey_assembles_request
             Sample.happy (Sample.global EmptyString)
             (Sample.opts Sample.sshKey "my-group")))
             (Sample.request (Some {| vpcv1.ID := Some "group-1" |}))).
    left; reflexivity.
  - apply (proj2 (proj2 (createKey_assembles_request
             Sample.happy (Sample.global EmptyString)
             (Sample.opts Sample.sshKey EmptyString)))
             (Sample.request None)).
    + left; reflexivity.
    + reflexivity.
Defined.

(** ** What the command sends *)

(** X2.  Every create-key request the command sends carries the --name
    value as its name and, as its public key, the one string that was handed
    to ssh.ParseAuthorizedKey, which accepted it: no key is sent that was not
    validated. *)
Theorem command_sends_validated_key
        (w : World) (cl : CommandLine) (req : vpcv1.CreateKeyOptions) :
  In req (createKeyRequests (trace (Execute w cl))) ->
  vpcv1.Name req = flagName cl /\
  exists k,
    vpcv1.PublicKey req = Some k /\
    validatedKeys (trace (Execute w cl)) = [k] /\
    ssh_ParseAuthorizedKey w k = None.
Proof.
  revert req. run_cmd; settle; split; eauto.
Qed.

Lemma command_sends_validated_key_witness :
  vpcv1.Name (Sample.request None) = flagName Sample.fromFile /\
  exists k,
    vpcv1.PublicKey (Sample.request None) = Some k /\
    validatedKeys (trace (Execute Sample.happy Sample.fromFile)) = [k] /\
    ssh_ParseAuthorizedKey Sample.happy k = None.
Proof.
  apply (command_sends_validated_key Sample.happy Sample.fromFile).
  left; reflexivity.
Defined.

(** X3.  Through the command, whatever the command line (the value of
    --resource-group-name included), no resource group is looked up and no
    request carries a resource group. *)
Theorem command_never_uses_resource_group (w : World) (cl : CommandLine) :
  (forall n a r, ~ In (EvGetResourceGroupID n a r) (trace (Execute w cl))) /\
  (forall req, In req (createKeyRequests (trace (Execute w cl))) ->
               vpcv1.ResourceGroup req = None).
Proof. run_cmd; split; settle. Qed.

Lemma command_never_uses_resource_group_witness :
  vpcv1.ResourceGroup (Sample.request None) = None.
Proof.
  apply (proj2 (command_never_uses_resource_group Sample.happy Sample.withGroup)).
  left; reflexivity.
Defined.

(** ** Order of the remote calls *)

(** X4.  createKey calls its collaborators in one fixed order and each at
    most once: client construction, account lookup, the resource-group lookup
    when resourceGroupName is not empty, create-key; a run stops somewhere
    along that list and never repeats a call.  When createKey returns nil it
    went through the whole list.  The command follows the list without the
    resource-group lookup. *)
Theorem remote_calls_in_order_once
        (w : World) (G : options.GlobalOptionsT) (o : keyCreateOptions)
        (cl : CommandLine) :
  let plan :=
    if resourceGroupName o =? EmptyString
    then [CallNewV1Client; CallGetAccountID; CallCreateKey]
    else [CallNewV1Client; CallGetAccountID; CallGetResourceGroupID; CallCreateKey] in
  (exists rest, remoteOrder (trace (createKey w G o)) ++ rest = plan) /\
  (result (createKey w G o) = Returned None ->
   remoteOrder (trace (createKey w G o)) = plan) /\
  (exists rest,
      remoteOrder (trace (Execute w cl)) ++ rest
      = [CallNewV1Client; CallGetAccountID; CallCreateKey]) /\
  (result (Execute w cl) = Returned None ->
   remoteOrder (trace (Execute w cl))
   = [CallNewV1Client; CallGetAccountID; CallCreateKey]).
Proof.
  cbv zeta. split; [|split; [|split]].
  - unfold_go; cbn.
    destruct (resourceGroupName o =? EmptyString); cbn;
      repeat (break_match; cbn); eexists; reflexivity.
  - unfold_go; cbn.
    destruct (resourceGroupName o =? EmptyString); cbn;
      repeat (break_match; cbn); settle.
  - run_cmd; eexists; reflexivity.
  - run_cmd; settle.
Qed.

Lemma remote_calls_in_order_once_witness :
  remoteOrder (trace (createKey Sample.happy (Sample.global EmptyString)
                                (Sample.opts Sample.sshKey "my-group")))
  = [CallNewV1Client; CallGetAccountID; CallGetResourceGroupID; CallCreateKey] /\
  remoteOrder (trace (Execute Sample.happy Sample.fromFile))
  = [CallNewV1Client; CallGetAccountID; CallCreateKey].
Proof.
  split.
  - apply (proj1 (proj2 (remote_calls_in_order_once
             Sample.happy (Sample.global EmptyString)
             (Sample.opts Sample.sshKey "my-group") Sample.fromFile))).
    reflexivity.
  - apply (proj2 (proj2 (proj2 (remote_calls_in_order_once
             Sample.happy (Sample.global EmptyString)
             (Sample.opts Sample.sshKey "my-group") Sample.fromFile)))).
    reflexivity.
Defined.

(** ** File handling *)

(** X5.  The command opens at most one file, and only the path given with
    --key-path; with --key-path empty it opens none.  Whatever way the
    command ends, the handles it closed are exactly the handles os.Open
    returned. *)
Theorem command_file_discipline (w : World) (cl : CommandLine) :
  (flagKeyPath cl = EmptyString -> filter isFileIO (trace (Execute w cl)) = []) /\
  (openedPaths (trace (Execute w cl)) = [] \/
   openedPaths (trace (Execute w cl)) = [flagKeyPath cl]) /\
  closedFiles (trace (Execute w cl)) = openedFiles (trace (Execute w cl)).
Proof.
  split; [|split].
  - intros Hpath. unfold Execute, RunE.
    cbn [parseFlags filePath]. rewrite Hpath. cbn [String.eqb negb].
    destruct (PreRunE _); [reflexivity|].
    destruct (flagName cl); [|reflexivity].
    apply validateAndCreate_no_file_io.
  - run_cmd; auto.
  - run_cmd; reflexivity.
Qed.

Lemma command_file_discipline_witness :
  filter isFileIO (trace (Execute Sample.happy Sample.inlineKey)) = [].
Proof.
  apply (proj1 (command_file_discipline Sample.happy Sample.inlineKey)).
  reflexivity.
Defined.

(** X6.  When the key file cannot be opened, the command stops there: it
    returns the open error behind "unable to open file. ", and the failed
    open is the only thing it did; nothing is validated, no remote call is
    made, nothing is closed. *)
Theorem open_failure_stops_command
        (w : World) (cl : CommandLine) (n : string) (e : error) :
  flagName cl = Some n ->
  flagPublicKey cl = EmptyString ->
  flagKeyPath cl <> EmptyString ->
  os_Open w (flagKeyPath cl) = inl e ->
  Execute w cl =
    (Returned (Some (wrapError "unable to open file. " e EmptyString)),
     [EvOpen (flagKeyPath cl) (inl e)]) /\
  Error (wrapError "unable to open file. " e EmptyString)
  = ("unable to open file. " ++ Error e)%string.
Proof.
  intros Hn Hk Hp Ho. apply String.eqb_neq in Hp. split.
  - unfold Execute, PreRunE, RunE, openFile, bind, call, ret, fmt.Errorf_w.
    cbn [parseFlags keyCreateOption publicKey filePath].
    rewrite Hn, Hk, Hp, Ho. reflexivity.
  - cbn [Error]. induction (Error e) as [|ch s IH]; [reflexivity|].
    cbn in *. injection IH as IH. rewrite IH at 1. reflexivity.
Qed.

Lemma open_failure_stops_command_witness :
  Execute Sample.missingFile Sample.fromFile =
    (Returned (Some (wrapError "unable to open file. "
        (errorString "open /keys/id_rsa.pub: no such file or directory")
        EmptyString)),
     [EvOpen Sample.keyPath
        (inl (errorString "open /keys/id_rsa.pub: no such file or directory"))]).
Proof.
  apply (open_failure_stops_command
           Sample.missingFile Sample.fromFile "foo"
           (errorString "open /keys/id_rsa.pub: no such file or directory"));
    [reflexivity | reflexivity | discriminate | reflexivity].
Defined.

(** ** Panics *)

(** X7.  The command panics in one situation only: the create-key call was
    made and returned a nil error together with a nil key or a key without a
    name.  The panic is the nil dereference, the request has been sent by
    then, and no line is logged. *)
Theorem panic_only_after_unnamed_key
        (w : World) (cl : CommandLine) (msg : string) :
  result (Execute w cl) = Panicked msg ->
  msg = "runtime error: invalid memory address or nil pointer dereference" /\
  logLines (trace (Execute w cl)) = [] /\
  exists req k,
    createKeyRequests (trace (Execute w cl)) = [req] /\
    In (EvCreateKey req (k, None)) (trace (Execute w cl)) /\
    (k = None \/ exists k', k = Some k' /\ vpcv1.KeyName k' = None).
Proof.
  run_cmd; settle.
  all: split; [reflexivity|]; split; [reflexivity|]; do 2 eexists;
    split; [reflexivity|]; split; [pick_event | eauto].
Qed.

Lemma panic_only_after_unnamed_key_witness :
  logLines (trace (Execute Scenario.keyless Sample.inlineKey)) = [] /\
  exists req k,
    createKeyRequests (trace (Execute Scenario.keyless Sample.inlineKey)) = [req] /\
    In (EvCreateKey req (k, None)) (trace (Execute Scenario.keyless Sample.inlineKey)) /\
    (k = None \/ exists k', k = Some k' /\ vpcv1.KeyName k' = None).
Proof.
  apply (panic_only_after_unnamed_key
           Scenario.keyless Sample.inlineKey
           "runtime error: invalid memory address or nil pointer dereference").
  reflexivity.
Defined.

(** ** Lines of the key file *)

Lemma append_empty_r (s : string) : (s ++ EmptyString)%string = s.
Proof. induction s as [|c s IH]; cbn; [reflexivity | rewrite IH; reflexivity]. Qed.

Lemma append_char_assoc (cur : string) (c : ascii) (k : string) :
  ((cur ++ String c EmptyString) ++ k)%string = (cur ++ String c k)%string.
Proof. induction cur as [|d cur IH]; cbn; [reflexivity | rewrite IH; reflexivity]. Qed.

Lemma length_append (a b : string) :
  String.length (a ++ b) = String.length a + String.length b.
Proof. induction a as [|c a IH]; cbn; [reflexivity | rewrite IH; reflexivity]. Qed.

Lemma hasChar_append (ch : ascii) (a b : string) :
  hasChar ch (a ++ b) = hasChar ch a || hasChar ch b.
Proof.
  induction a as [|c a IH]; cbn; [reflexivity|].
  rewrite IH, orb_assoc. reflexivity.
Qed.

(** A stretch of input without a newline only extends the current line. *)
Lemma scanFrom_no_newline_prefix (k rest cur : string) :
  hasChar LF k = false ->
  bufio.scanFrom cur (k ++ rest) = bufio.scanFrom (cur ++ k) rest.
Proof.
  revert cur. induction k as [|c k IH]; intros cur H.
  - rewrite append_empty_r. reflexivity.
  - cbn in H. apply orb_false_elim in H as [Hc Hk].
    cbn. rewrite Hc, (IH _ Hk), append_char_assoc. reflexivity.
Qed.

Lemma dropCR_no_trailing_CR (k : string) :
  endsWithCR k = false -> bufio.dropCR k = k.
Proof.
  induction k as [|c k IH]; [reflexivity|].
  destruct k as [|d k]; cbn in *.
  - intros ->. reflexivity.
  - intros H. rewrite (IH H). reflexivity.
Qed.

Lemma dropCR_append_CR (k : string) :
  bufio.dropCR (k ++ String CR EmptyString) = k.
Proof.
  induction k as [|c k IH]; [reflexivity|].
  cbn [append]. destruct k as [|d k].
  - cbn. reflexivity.
  - change (bufio.dropCR (String c (String d k ++ String CR EmptyString)))
      with (String c (bufio.dropCR (String d k ++ String CR EmptyString))).
    rewrite IH. reflexivity.
Qed.

Lemma dropCR_keeps_no_newline (s : string) :
  hasChar LF s = false -> hasChar LF (bufio.dropCR s) = false.
Proof.
  induction s as [|c s IH]; [reflexivity|].
  destruct s as [|d s].
  - cbn. destruct (Ascii.eqb c CR); [reflexivity | cbn; auto].
  - intros H. change (hasChar LF (String c (String d s)))
      with (Ascii.eqb c LF || hasChar LF (String d s)) in H.
    apply orb_false_elim in H as [Hc Hs].
    change (bufio.dropCR (String c (String d s)))
      with (String c (bufio.dropCR (String d s))).
    cbn [hasChar]. rewrite Hc, (IH Hs). reflexivity.
Qed.

(** No line the scanner yields holds a newline. *)
Lemma scanFrom_lines_no_newline (data cur : string) :
  hasChar LF cur = false ->
  Forall (fun line => hasChar LF line = false) (fst (bufio.scanFrom cur data)).
Proof.
  revert cur. induction data as [|c data IH]; intros cur Hcur;
    cbn [bufio.scanFrom].
  - destruct cur as [|a cur']; [constructor|].
    destruct (bufio.fits _); cbn [fst]; [|constructor].
    constructor; [apply dropCR_keeps_no_newline, Hcur | constructor].
  - destruct (Ascii.eqb c LF) eqn:Hc.
    + destruct (bufio.fits cur); cbn [fst]; [|constructor].
      specialize (IH EmptyString eq_refl).
      destruct (bufio.scanFrom EmptyString data) as [toks long]. cbn [fst] in *.
      constructor; [apply dropCR_keeps_no_newline, Hcur | exact IH].
    + apply IH. rewrite hasChar_append, Hcur. cbn. rewrite Hc. reflexivity.
Qed.

Lemma last_Forall {A} (P : A -> Prop) (l : list A) (d : A) :
  Forall P l -> P d -> P (last l d).
Proof.
  induction 1 as [|x l Hx Hl IH]; intros Hd; [exact Hd|].
  destruct l; [exact Hx | apply IH, Hd].
Qed.

(** The scan of a one-line file. *)
Lemma Scan_one_line (f : os.File) (k : string) (t : lineEnding) :
  k <> EmptyString ->
  hasChar LF k = false ->
  endsWithCR k = false ->
  (N.of_nat (String.length (k ++ buffered t)) < bufio.MaxScanTokenSize)%N ->
  os.contents f = (k ++ ending t)%string ->
  fst (bufio.Scan f) = [k].
Proof.
  intros Hne Hlf Hcr Hlen Hf.
  rewrite Scan_tokens, Hf.
  destruct t; cbn [ending buffered] in *.
  - rewrite append_empty_r in Hlen.
    rewrite scanFrom_no_newline_prefix by exact Hlf. cbn.
    destruct k; [congruence|].
    replace (bufio.fits (String a k)) with true
      by (symmetry; apply N.ltb_lt; exact Hlen).
    cbn [fst]. rewrite dropCR_no_trailing_CR by exact Hcr. reflexivity.
  - rewrite append_empty_r in Hlen.
    rewrite scanFrom_no_newline_prefix by exact Hlf. cbn.
    replace (bufio.fits k) with true
      by (symmetry; apply N.ltb_lt; exact Hlen).
    cbn. rewrite dropCR_no_trailing_CR by exact Hcr. reflexivity.
  - rewrite <- (append_char_assoc k CR (String LF EmptyString)).
    rewrite scanFrom_no_newline_prefix
      by (rewrite hasChar_append, Hlf; reflexivity).
    cbn.
    replace (bufio.fits (k ++ String CR EmptyString)) with true
      by (symmetry; apply N.ltb_lt; exact Hlen).
    cbn. rewrite dropCR_append_CR. reflexivity.
Qed.

(** X8.  A key file that holds the key on a single line (with no line
    ending, a newline, or a carriage return and a newline after it) gives
    the same run as the key passed with --public-key: same result, and the
    same calls apart from the open and the close of the file.  The key is not
    empty, has no newline in it and does not end with a carriage return, and
    the line as the scanner buffers it (the key, and the carriage return of
    a CR LF ending) is shorter than the scanner's buffer of 65536 bytes. *)
Theorem one_line_key_file_same_as_inline
        (w : World) (n : option string) (g : options.GlobalOptionsT)
        (path : string) (f : os.File) (k : string) (t : lineEnding) :
  path <> EmptyString ->
  k <> EmptyString ->
  hasChar LF k = false ->
  endsWithCR k = false ->
  (N.of_nat (String.length (k ++ buffered t)) < bufio.MaxScanTokenSize)%N ->
  os_Open w path = inr f ->
  os.contents f = (k ++ ending t)%string ->
  result (Execute w (viaKeyPath n path g))
  = result (Execute w (viaPublicKey n k g)) /\
  filter (fun ev => negb (isFileIO ev)) (trace (Execute w (viaKeyPath n path g)))
  = trace (Execute w (viaPublicKey n k g)).
Proof.
  intros Hpath Hk Hlf Hcr Hlen Hopen Hf.
  pose proof (Scan_one_line f k t Hk Hlf Hcr Hlen Hf) as Hscan.
  unfold Execute, PreRunE.
  cbn [parseFlags viaKeyPath viaPublicKey keyCreateOption publicKey filePath
       flagName flagKeyPath flagPublicKey GlobalOptions].
  apply String.eqb_neq in Hk. rewrite Hk.
  pose proof Hpath as Hpath'. apply String.eqb_neq in Hpath'. rewrite Hpath'.
  cbn [String.eqb Bool.eqb].
  destruct n as [n|]; [|split; reflexivity].
  pose proof (RunE_opened w g (parseFlags (viaKeyPath (Some n) path g)) f
                          Hpath Hopen) as HR.
  cbn [parseFlags viaKeyPath keyCreateOption publicKey filePath
       flagName flagKeyPath flagPublicKey GlobalOptions] in HR.
  rewrite HR, Hscan.
  unfold RunE. cbn [filePath keyCreateOption String.eqb negb].
  change (scanLoop {| name := n; publicKey := EmptyString;
                      resourceGroupName := EmptyString |} [k])
    with {| name := n; publicKey := k; resourceGroupName := EmptyString |}.
  unfold result, trace; cbn [fst snd]. split; [reflexivity|].
  cbn [filter isFileIO negb]. rewrite filter_app. cbn [filter isFileIO negb].
  rewrite app_nil_r. apply filter_no_file_io, validateAndCreate_no_file_io.
Qed.

Lemma one_line_key_file_same_as_inline_witness :
  result (Execute Scenario.dosWorld
                  (viaKeyPath (Some "foo") Sample.keyPath (Sample.global EmptyString)))
  = result (Execute Scenario.dosWorld
                    (viaPublicKey (Some "foo") Sample.sshKey (Sample.global EmptyString))) /\
  filter (fun ev => negb (isFileIO ev))
         (trace (Execute Scenario.dosWorld
                   (viaKeyPath (Some "foo") Sample.keyPath (Sample.global EmptyString))))
  = trace (Execute Scenario.dosWorld
             (viaPublicKey (Some "foo") Sample.sshKey (Sample.global EmptyString))).
Proof.
  apply (one_line_key_file_same_as_inline
           Scenario.dosWorld (Some "foo") (Sample.global EmptyString)
           Sample.keyPath Scenario.dosKeyFile Sample.sshKey DosEnding);
    [discriminate | discriminate | reflexivity | reflexivity
     | vm_compute; reflexivity | reflexivity | reflexivity].
Defined.

(** X9.  An empty key file is not reported as such: the command hands the
    empty string to ssh.ParseAuthorizedKey and, when that is rejected,
    returns the invalid-key error after closing the file, with no remote
    call. *)
Theorem empty_key_file_validates_empty_string
        (w : World) (cl : CommandLine) (n : string) (f : os.File) (e : error) :
  flagName cl = Some n ->
  flagPublicKey cl = EmptyString ->
  flagKeyPath cl <> EmptyString ->
  os_Open w (flagKeyPath cl) = inr f ->
  os.contents f = EmptyString ->
  ssh_ParseAuthorizedKey w EmptyString = Some e ->
  Execute w cl =
    (Returned (Some (wrapError "the provided VPC key is invalid. " e " ")),
     [EvOpen (flagKeyPath cl) (inr f);
      EvParseAuthorizedKey EmptyString (Some e);
      EvClose f]).
Proof.
  intros Hn Hk Hp Ho Hf He.
  unfold Execute, PreRunE.
  cbn [parseFlags keyCreateOption publicKey filePath].
  rewrite Hn, Hk. pose proof Hp as Hp'. apply String.eqb_neq in Hp'. rewrite Hp'.
  cbn [String.eqb Bool.eqb].
  pose proof (RunE_opened w (GlobalOptions cl) (parseFlags cl) f Hp Ho) as HR.
  cbn [parseFlags keyCreateOption publicKey filePath] in HR.
  rewrite Hn, Hk in HR. rewrite HR.
  rewrite Scan_tokens, Hf. cbn [bufio.scanFrom fst keyCreateOption].
  unfold scanLoop; cbn [fold_left].
  unfold validateAndCreate, parseAuthorizedKey, bind, call, ret, result, trace,
    fmt.Errorf_w.
  cbn [publicKey]. rewrite He. reflexivity.
Qed.

Lemma empty_key_file_validates_empty_string_witness :
  Execute Scenario.emptyKeyFile Sample.fromFile =
    (Returned (Some (wrapError "the provided VPC key is invalid. "
                               Sample.noKeyFound " ")),
     [EvOpen Sample.keyPath (inr Scenario.emptyFile);
      EvParseAuthorizedKey EmptyString (Some Sample.noKeyFound);
      EvClose Scenario.emptyFile]).
Proof.
  apply (empty_key_file_validates_empty_string
           Scenario.emptyKeyFile Sample.fromFile "foo" Scenario.emptyFile
           Sample.noKeyFound);
    [reflexivity | reflexivity | discriminate | reflexivity | reflexivity
     | reflexivity].
Defined.

(** X10.  A key taken from a key file never holds a newline: with
    --key-path given, whatever the file holds, the string the command
    validates (and so the public key of any request it sends) is free of
    newlines. *)
Theorem key_from_file_has_no_newline
        (w : World) (cl : CommandLine) (k : string) :
  flagKeyPath cl <> EmptyString ->
  In k (validatedKeys (trace (Execute w cl))) ->
  hasChar LF k = false.
Proof.
  intros Hp. unfold Execute.
  destruct (PreRunE (parseFlags cl)) eqn:Hpre; [intros []|].
  destruct (flagName cl) as [n|]; [|intros []].
  assert (Hk : flagPublicKey cl = EmptyString).
  { unfold PreRunE in Hpre. cbn [parseFlags keyCreateOption publicKey filePath] in Hpre.
    pose proof Hp as Hp'. apply String.eqb_neq in Hp'. rewrite Hp' in Hpre.
    destruct (flagPublicKey cl =? EmptyString) eqn:E; [|discriminate].
    apply String.eqb_eq in E. exact E. }
  destruct (os_Open w (flagKeyPath cl)) as [e|f] eqn:Ho.
  - unfold RunE, openFile, bind, call, ret, trace.
    cbn [parseFlags filePath]. apply String.eqb_neq in Hp. rewrite Hp, Ho.
    intros [].
  - rewrite (RunE_opened w (GlobalOptions cl) (parseFlags cl) f Hp Ho).
    unfold trace at 1; cbn [snd validatedKeys].
    rewrite validatedKeys_app. cbn [validatedKeys]. rewrite app_nil_r.
    destruct (validateAndCreate_key w (GlobalOptions cl)
                (scanLoop (keyCreateOption (parseFlags cl)) (fst (bufio.Scan f))))
      as [Hv _].
    rewrite Hv, scanLoop_publicKey. cbn [parseFlags keyCreateOption publicKey].
    rewrite Hk, Scan_tokens.
    intros [<- | []].
    apply last_Forall; [|reflexivity].
    apply scanFrom_lines_no_newline. reflexivity.
Qed.

Lemma key_from_file_has_no_newline_witness :
  hasChar LF Sample.sshKey = false.
Proof.
  apply (key_from_file_has_no_newline Sample.happy Sample.fromFile Sample.sshKey).
  - discriminate.
  - left; reflexivity.
Defined.
